(** * Job Search tool: request translation and result normalisation

    A shallow embedding of [server.py] ([scrape_jobs_tool]) together with
    the part of the Python runtime it relies on (truthiness, [str],
    [str.lower], list membership), and the properties of the tool stated
    in its specification. *)

From Stdlib Require Import ZArith List String Ascii Bool Lia.
From Stdlib Require Import DecimalString.
From Stdlib Require Import Floats.SpecFloat.
From Stdlib Require Import Permutation.
Import ListNotations.
Local Open Scope string_scope.

(** ** The Python runtime used by the tool *)

Module Py.

(** *** [str.lower]

    Strings are byte strings (UTF-8). On a string of ASCII characters
    [str.lower] folds the letters [A]..[Z] and leaves every other
    character as it is; on a string that has a character outside ASCII
    it goes by the interpreter's Unicode tables. *)

Definition is_upper (c : ascii) : bool :=
  let n := N_of_ascii c in (65 <=? n)%N && (n <=? 90)%N.

Definition lower_char (c : ascii) : ascii :=
  if is_upper c then ascii_of_N (N_of_ascii c + 32) else c.

Fixpoint ascii_lower (s : string) : string :=
  match s with
  | EmptyString => EmptyString
  | String c s' => String (lower_char c) (ascii_lower s')
  end.

(** Every byte is below 128: the string holds ASCII characters only. *)
Fixpoint is_ascii (s : string) : bool :=
  match s with
  | EmptyString => true
  | String c s' => (N_of_ascii c <? 128)%N && is_ascii s'
  end.

Fixpoint has_upper (s : string) : bool :=
  match s with
  | EmptyString => false
  | String c s' => is_upper c || has_upper s'
  end.

(** Two bytes that are the same letter in possibly different case: equal,
    or an upper-case letter and the lower-case letter 32 code points
    above it. Stated on the codes, without reference to [lower_char]. *)
Definition same_letter (c1 c2 : ascii) : bool :=
  let n1 := N_of_ascii c1 in
  let n2 := N_of_ascii c2 in
  (n1 =? n2)%N
  || (is_upper c1 && (n2 =? n1 + 32)%N)
  || (is_upper c2 && (n1 =? n2 + 32)%N).

Fixpoint eq_upto_case (s1 s2 : string) : bool :=
  match s1, s2 with
  | EmptyString, EmptyString => true
  | String c1 r1, String c2 r2 => same_letter c1 c2 && eq_upto_case r1 r2
  | _, _ => false
  end.

Section Lower.

(** [str.lower] on a string that has a character outside ASCII: the
    interpreter's, from its Unicode tables. *)
Variable unicode_lower : string -> string.

Definition lower (s : string) : string :=
  if is_ascii s then ascii_lower s else unicode_lower s.


End Lower.

(** *** [x in xs] on a list of strings *)

Definition str_in (x : string) (xs : list string) : bool :=
  existsb (String.eqb x) xs.

(** *** Dynamic values

    The values a cell of the backend's table can hold. Floats are kept
    as IEEE-754 data ([spec_float]); a date is a calendar date. *)

Inductive value : Type :=
| VNone
| VBool (b : bool)
| VInt (z : Z)
| VFloat (f : spec_float)
| VStr (s : string)
| VDate (year month day : nat).

Definition float_is_zero (f : spec_float) : bool :=
  match f with
  | S754_zero _ => true
  | _ => false
  end.

(** [bool(x)]: [None], [False], zero and the empty string are falsy; a
    NaN is not zero, hence truthy. *)
Definition truthy (v : value) : bool :=
  match v with
  | VNone => false
  | VBool b => b
  | VInt z => negb (z =? 0)%Z
  | VFloat f => negb (float_is_zero f)
  | VStr s => negb (s =? "")
  | VDate _ _ _ => true
  end.



(** Truthiness of an [Optional[str]] argument. *)
Definition truthy_opt (o : option string) : bool :=
  match o with
  | Some s => negb (s =? "")
  | None => false
  end.

Definition str_of_Z (z : Z) : string :=
  NilEmpty.string_of_int (Z.to_int z).

Definition str_of_nat (n : nat) : string :=
  NilEmpty.string_of_uint (Nat.to_uint n).

Fixpoint zeros (n : nat) : string :=
  match n with
  | O => ""
  | S n' => String "0" (zeros n')
  end.

(** [%0<w>d] for a natural number. *)
Definition zero_pad (w n : nat) : string :=
  let s := str_of_nat n in
  zeros (w - String.length s) ++ s.

Section Str.

(** [repr] of a finite non-zero float (sign, mantissa, exponent): the
    shortest decimal string that reads back as the same float. It is
    the interpreter's; the tool only interpolates its result. *)
Variable float_repr : bool -> positive -> Z -> string.

Definition str_of_float (f : spec_float) : string :=
  match f with
  | S754_zero false => "0.0"
  | S754_zero true => "-0.0"
  | S754_infinity false => "inf"
  | S754_infinity true => "-inf"
  | S754_nan => "nan"
  | S754_finite s m e => float_repr s m e
  end.

(** [str(x)], which is also what an f-string field [{x}] inserts. *)
Definition str (v : value) : string :=
  match v with
  | VNone => "None"
  | VBool true => "True"
  | VBool false => "False"
  | VInt z => str_of_Z z
  | VFloat f => str_of_float f
  | VStr s => s
  | VDate y m d => zero_pad 4 y ++ "-" ++ zero_pad 2 m ++ "-" ++ zero_pad 2 d
  end.

End Str.

End Py.

(** ** [server.py] *)

Module Server.
Import Py.

Module Kw.
(** The keyword arguments handed to [scrape_jobs]. [country_indeed] is
    [None] when the key is not set. *)
Record t : Type := mk {
  site_name : list string;
  search_term : option string;
  google_search_term : option string;
  location : option string;
  results_wanted : Z;
  hours_old : Z;
  country_indeed : option string
}.
End Kw.

Module Row.
(** Modelled from the spec: the type of a raw listing record, which is
    declared by the backend library; one row of the table the backend
    returns, with the columns the tool reads. A cell the backend left
    out holds [VNone] (or a NaN in a numeric column). *)
Record t : Type := mk {
  title : value;
  company : value;
  location : value;
  date_posted : value;
  job_type : value;
  experience_range : value;
  is_remote : value;
  min_amount : value;
  max_amount : value;
  currency : value;
  interval : value;
  site : value;
  job_url : value;
  company_url : value
}.
End Row.

Module Job.
(** One entry of ["Jobs"]. *)
Record t : Type := mk {
  Title : value;
  Company : value;
  Location : value;
  PostedDate : string;
  JobType : value;
  ExperienceRange : value;
  Remote : value;
  Salary : option string;
  Board : value;
  JobURL : value;
  CompanyURL : value
}.
End Job.

(** The dictionary the tool returns. *)
Record ResultSet : Type := mkResultSet {
  Count : Z;
  Jobs : list Job.t
}.

(** The default arguments of [scrape_jobs_tool]. *)
Definition default_Boards : list string := ["Indeed"; "LinkedIn"; "Google"].
Definition default_ResultCount : Z := 20.
Definition default_PostedWithinDays : Z := 7.

Definition country_required : string :=
  "Country is required when using Indeed. " ++
  "Examples: 'us', 'de', 'pk', 'uk'.".

(** [str] of an [Optional[str]], as an f-string field inserts it. *)
Definition str_opt (o : option string) : string :=
  match o with
  | Some s => s
  | None => "None"
  end.

(** [hours_old]: days to hours. *)
Definition hours_old (PostedWithinDays : Z) : Z :=
  (PostedWithinDays * 24)%Z.

(** [google_search_term]: [None] unless Google is among the boards and
    [RoleKeywords] is truthy. *)
Definition google_search_term
    (site_name : list string) (RoleKeywords Location : option string)
    : option string :=
  if str_in "google" site_name && truthy_opt RoleKeywords then
    let term := str_opt RoleKeywords ++ " jobs" in
    if truthy_opt Location
    then Some (term ++ " in " ++ str_opt Location)
    else Some term
  else None.

Section Tool.

Variable unicode_lower : string -> string.

Variable float_repr : bool -> positive -> Z -> string.

(** [site_name]: the boards, each in lower case. *)
Definition site_name (Boards : list string) : list string :=
  map (lower unicode_lower) Boards.

(** What the backend raises is opaque to the tool. *)
Variable backend_exn : Type.

(** The backend capability: given the calls made so far and the
    keyword arguments, a table of raw listings or a failure. *)
Variable scrape_jobs :
  list Kw.t -> Kw.t -> backend_exn + list Row.t.

(** What a run can raise: the [ValueError] the tool raises itself, or
    whatever the backend raised, of any class, passed on as it is. *)
Inductive exn : Type :=
| ValueError (msg : string)
| BackendInvocationError (e : backend_exn).

(** The world outside the tool: the backend calls made so far. *)
Record World : Type := mkWorld { calls : list Kw.t }.

(** Computations that may call the backend and may raise; the world
    survives a raise. *)
Definition M (A : Type) : Type := World -> World * (exn + A).

Definition ret {A} (a : A) : M A := fun w => (w, inr a).

Definition raise {A} (e : exn) : M A := fun w => (w, inl e).

Definition bind {A B} (c : M A) (k : A -> M B) : M B :=
  fun w =>
    match c w with
    | (w', inr a) => k a w'
    | (w', inl e) => (w', inl e)
    end.

Notation "x <- c ;; k" := (bind c (fun x => k))
  (at level 61, c at next level, right associativity).

Definition call_scrape_jobs (kw : Kw.t) : M (list Row.t) :=
  fun w =>
    let w' := mkWorld (calls w ++ [kw])%list in
    match scrape_jobs (calls w) kw with
    | inr jobs => (w', inr jobs)
    | inl e => (w', inl (BackendInvocationError e))
    end.

(** The conditional expression bound to [salary] in the loop. *)
Definition salary (row : Row.t) : option string :=
  if truthy (Row.min_amount row) && truthy (Row.max_amount row)
  then Some (str float_repr (Row.min_amount row) ++ "–"
             ++ str float_repr (Row.max_amount row) ++ " "
             ++ str float_repr (Row.currency row) ++ " ("
             ++ str float_repr (Row.interval row) ++ ")")
  else None.

(** The dictionary appended for one row. *)
Definition listing (row : Row.t) : Job.t :=
  {| Job.Title := Row.title row;
     Job.Company := Row.company row;
     Job.Location := Row.location row;
     Job.PostedDate := str float_repr (Row.date_posted row);
     Job.JobType := Row.job_type row;
     Job.ExperienceRange := Row.experience_range row;
     Job.Remote := Row.is_remote row;
     Job.Salary := salary row;
     Job.Board := Row.site row;
     Job.JobURL := Row.job_url row;
     Job.CompanyURL := Row.company_url row |}.

(** [for _, row in jobs.iterrows(): results.append(...)], from
    [results = []]. *)
Definition collect (jobs : list Row.t) : list Job.t :=
  fold_left (fun results row => (results ++ [listing row])%list) jobs [].

(** Everything after the backend call. *)
Definition normalize_results (jobs : list Row.t) : ResultSet :=
  let results := collect jobs in
  {| Count := Z.of_nat (List.length results); Jobs := results |}.

(** Everything before the backend call: the keyword arguments, or the
    error raised. *)
Definition normalize_request
    (Boards : list string) (RoleKeywords Location : option string)
    (ResultCount PostedWithinDays : Z) (Country : option string)
    : M Kw.t :=
  let site_name := site_name Boards in
  let hours_old := hours_old PostedWithinDays in
  let google_search_term :=
    google_search_term site_name RoleKeywords Location in
  let scrape_kwargs :=
    {| Kw.site_name := site_name;
       Kw.search_term := RoleKeywords;
       Kw.google_search_term := google_search_term;
       Kw.location := Location;
       Kw.results_wanted := ResultCount;
       Kw.hours_old := hours_old;
       Kw.country_indeed := None |} in
  if str_in "indeed" site_name then
    if negb (truthy_opt Country) then
      raise (ValueError country_required)
    else
      ret {| Kw.site_name := site_name;
             Kw.search_term := RoleKeywords;
             Kw.google_search_term := google_search_term;
             Kw.location := Location;
             Kw.results_wanted := ResultCount;
             Kw.hours_old := hours_old;
             Kw.country_indeed := option_map (lower unicode_lower) Country |}
  else ret scrape_kwargs.

Definition scrape_jobs_tool
    (Boards : list string) (RoleKeywords Location : option string)
    (ResultCount PostedWithinDays : Z) (Country : option string)
    : M ResultSet :=
  scrape_kwargs <- normalize_request Boards RoleKeywords Location
                     ResultCount PostedWithinDays Country ;;
  jobs <- call_scrape_jobs scrape_kwargs ;;
  ret (normalize_results jobs).

End Tool.

Arguments ValueError {backend_exn} msg.
Arguments BackendInvocationError {backend_exn} e.
Arguments call_scrape_jobs {backend_exn} scrape_jobs kw.
Arguments scrape_jobs_tool unicode_lower float_repr {backend_exn} scrape_jobs
  Boards RoleKeywords Location ResultCount PostedWithinDays Country.

End Server.

(** ** Sample data for concrete runs *)

Module Demo.
Import Py Server.

(** [str.lower] on the two strings with a character outside ASCII that
    the samples use. *)
Definition unicode_lower (s : string) : string :=
  if s =? "École" then "école"
  else if s =? "CÔTE D'IVOIRE" then "côte d'ivoire"
  else s.

(** [repr] on the two floats the samples use, [80000.0] and [100000.0]
    as binary64 values. *)
Definition float_repr (s : bool) (m : positive) (e : Z) : string :=
  if negb s && (m =? 5497558138880000)%positive && (e =? -36)%Z
  then "80000.0"
  else if negb s && (m =? 6871947673600000)%positive && (e =? -36)%Z
  then "100000.0"
  else "?".

Definition row (min max cur ivl : value) : Row.t :=
  {| Row.title := VStr "Backend Engineer";
     Row.company := VStr "Acme";
     Row.location := VStr "Hanoi";
     Row.date_posted := VDate 2024 1 5;
     Row.job_type := VStr "fulltime";
     Row.experience_range := VNone;
     Row.is_remote := VBool false;
     Row.min_amount := min;
     Row.max_amount := max;
     Row.currency := cur;
     Row.interval := ivl;
     Row.site := VStr "linkedin";
     Row.job_url := VStr "https://example.org/job/1";
     Row.company_url := VNone |}.

Definition row_usd : Row.t :=
  row (VInt 80000) (VInt 100000) (VStr "USD") (VStr "yearly").

Definition row_min_only : Row.t :=
  row (VInt 80000) VNone (VStr "USD") (VStr "yearly").

Definition row_zero_min : Row.t :=
  row (VInt 0) (VInt 100000) (VStr "USD") (VStr "yearly").

Definition row_no_currency : Row.t :=
  row (VInt 80000) (VInt 100000) VNone VNone.

Definition row_float : Row.t :=
  row (VFloat (S754_finite false 5497558138880000 (-36)))
      (VFloat (S754_finite false 6871947673600000 (-36)))
      (VStr "USD") (VStr "yearly").


Definition row_nan : Row.t :=
  row (VFloat S754_nan) (VFloat S754_nan) (VFloat S754_nan) (VFloat S754_nan).

(** A backend that always answers with the same two rows. *)
Definition backend (_ : list Kw.t) (_ : Kw.t) : string + list Row.t :=
  inr [row_usd; row_min_only].

(** A backend that answers with those rows only on its second call. *)
Definition backend' (earlier : list Kw.t) (_ : Kw.t) : string + list Row.t :=
  match earlier with
  | [_] => inr [row_usd; row_min_only]
  | _ => inl "throttled"
  end.

Definition w0 : World := mkWorld [].

Definition kw_linkedin : Kw.t :=
  {| Kw.site_name := ["linkedin"];
     Kw.search_term := Some "Backend Engineer";
     Kw.google_search_term := None;
     Kw.location := Some "Hanoi";
     Kw.results_wanted := 20;
     Kw.hours_old := 168;
     Kw.country_indeed := None |}.


Definition kw_google : Kw.t :=
  {| Kw.site_name := ["google"];
     Kw.search_term := Some "Backend Engineer";
     Kw.google_search_term := Some "Backend Engineer jobs in Hanoi";
     Kw.location := Some "Hanoi";
     Kw.results_wanted := 20;
     Kw.hours_old := 168;
     Kw.country_indeed := None |}.

Definition kw_default : Kw.t :=
  {| Kw.site_name := ["indeed"; "linkedin"; "google"];
     Kw.search_term := None;
     Kw.google_search_term := None;
     Kw.location := None;
     Kw.results_wanted := 20;
     Kw.hours_old := 168;
     Kw.country_indeed := Some "vietnam" |}.

End Demo.

(** ** Facts about the runtime *)

Module PyFacts.
Import Py.

Lemma N_of_ascii_inj (c1 c2 : ascii) :
  N_of_ascii c1 = N_of_ascii c2 -> c1 = c2.
Proof.
  intros H.
  rewrite <- (ascii_N_embedding c1), <- (ascii_N_embedding c2).
  now rewrite H.
Qed.

Lemma is_upper_iff (c : ascii) :
  is_upper c = true <-> (65 <= N_of_ascii c <= 90)%N.
Proof.
  unfold is_upper. rewrite andb_true_iff, !N.leb_le. tauto.
Qed.

Lemma code_lower_char (c : ascii) :
  N_of_ascii (lower_char c) =
  if is_upper c then (N_of_ascii c + 32)%N else N_of_ascii c.
Proof.
  unfold lower_char.
  destruct (is_upper c) eqn:U; [| reflexivity].
  apply is_upper_iff in U.
  apply N_ascii_embedding. lia.
Qed.

Lemma lower_char_not_upper (c : ascii) : is_upper (lower_char c) = false.
Proof.
  destruct (is_upper (lower_char c)) eqn:U; [| reflexivity].
  apply is_upper_iff in U. rewrite code_lower_char in U.
  destruct (is_upper c) eqn:Uc.
  - apply is_upper_iff in Uc. lia.
  - assert (is_upper c = true) by (apply is_upper_iff; exact U).
    congruence.
Qed.

Lemma lower_char_fixed (c : ascii) :
  is_upper c = false -> lower_char c = c.
Proof. unfold lower_char. now intros ->. Qed.

(** [same_letter] is exactly the kernel of [lower_char]. *)
Lemma same_letter_iff (c1 c2 : ascii) :
  same_letter c1 c2 = true <-> lower_char c1 = lower_char c2.
Proof.
  unfold same_letter.
  rewrite !orb_true_iff, !andb_true_iff, !N.eqb_eq.
  split.
  - intros H. apply N_of_ascii_inj. rewrite !code_lower_char.
    destruct (is_upper c1) eqn:U1, (is_upper c2) eqn:U2;
      try apply is_upper_iff in U1; try apply is_upper_iff in U2;
      destruct H as [[H | [H1 H]] | [H1 H]];
      try discriminate; try lia.
    + assert (is_upper c2 = true) by (apply is_upper_iff; lia). congruence.
    + assert (is_upper c1 = true) by (apply is_upper_iff; lia). congruence.
  - intros H. apply (f_equal N_of_ascii) in H.
    rewrite !code_lower_char in H.
    destruct (is_upper c1) eqn:U1, (is_upper c2) eqn:U2.
    + left; left. lia.
    + left; right. split; [reflexivity | lia].
    + right. split; [reflexivity | lia].
    + left; left. exact H.
Qed.

Lemma eq_upto_case_iff (s1 s2 : string) :
  eq_upto_case s1 s2 = true <-> ascii_lower s1 = ascii_lower s2.
Proof.
  revert s2. induction s1 as [| c1 r1 IH]; intros [| c2 r2]; simpl;
    try (split; [discriminate | discriminate]).
  - split; reflexivity.
  - rewrite andb_true_iff, same_letter_iff, IH.
    split.
    + intros [-> ->]. reflexivity.
    + intros H. injection H as H1 H2. now split.
Qed.

Lemma ascii_lower_no_upper (s : string) : has_upper (ascii_lower s) = false.
Proof.
  induction s as [| c r IH]; simpl; [reflexivity |].
  now rewrite lower_char_not_upper, IH.
Qed.

Lemma ascii_lower_fixed (s : string) :
  has_upper s = false -> ascii_lower s = s.
Proof.
  induction s as [| c r IH]; simpl; [reflexivity |].
  intros H. apply orb_false_iff in H as [Hc Hr].
  now rewrite (lower_char_fixed _ Hc), (IH Hr).
Qed.

Lemma is_ascii_ascii_lower (s : string) :
  is_ascii s = true -> is_ascii (ascii_lower s) = true.
Proof.
  induction s as [| c r IH]; simpl; [reflexivity |].
  intros H. apply andb_true_iff in H as [Hc Hr].
  rewrite (IH Hr), andb_true_r.
  apply N.ltb_lt in Hc. apply N.ltb_lt. rewrite code_lower_char.
  destruct (is_upper c) eqn:U; [| exact Hc].
  apply is_upper_iff in U. lia.
Qed.

(** What [str.lower] does on ASCII strings. *)

Section LowerFacts.

Variable unicode_lower : string -> string.

Local Abbreviation lower := (Py.lower unicode_lower).

Lemma lower_ascii (s : string) :
  is_ascii s = true -> lower s = ascii_lower s.
Proof. unfold Py.lower. now intros ->. Qed.

Lemma lower_is_ascii (s : string) :
  is_ascii s = true -> is_ascii (lower s) = true.
Proof.
  intros A. rewrite (lower_ascii _ A). now apply is_ascii_ascii_lower.
Qed.

Lemma lower_no_upper (s : string) :
  is_ascii s = true -> has_upper (lower s) = false.
Proof.
  intros A. rewrite (lower_ascii _ A). apply ascii_lower_no_upper.
Qed.

Lemma lower_fixed (s : string) :
  is_ascii s = true -> has_upper s = false -> lower s = s.
Proof.
  intros A U. rewrite (lower_ascii _ A). now apply ascii_lower_fixed.
Qed.

Lemma lower_idempotent (s : string) :
  is_ascii s = true -> lower (lower s) = lower s.
Proof.
  intros A. apply lower_fixed.
  - now apply lower_is_ascii.
  - now apply lower_no_upper.
Qed.

Lemma lower_eq_upto_case (s1 s2 : string) :
  is_ascii s1 = true -> is_ascii s2 = true ->
  (eq_upto_case s1 s2 = true <-> lower s1 = lower s2).
Proof.
  intros A1 A2. rewrite (lower_ascii _ A1), (lower_ascii _ A2).
  apply eq_upto_case_iff.
Qed.


End LowerFacts.

Lemma append_assoc (s1 s2 s3 : string) :
  (s1 ++ s2) ++ s3 = s1 ++ s2 ++ s3.
Proof.
  induction s1 as [| c r IH]; simpl; [reflexivity | now rewrite IH].
Qed.

Lemma str_in_In (x : string) (xs : list string) :
  str_in x xs = true <-> In x xs.
Proof.
  unfold str_in. rewrite existsb_exists. split.
  - intros [y [Hy E]]. apply String.eqb_eq in E. now subst.
  - intros H. exists x. split; [exact H | apply String.eqb_refl].
Qed.

Lemma truthy_opt_true (o : option string) :
  truthy_opt o = true <-> exists s, o = Some s /\ s <> "".
Proof.
  destruct o as [s |]; simpl.
  - rewrite negb_true_iff. split.
    + intros H. exists s. split; [reflexivity |].
      intros ->. discriminate.
    + intros [s' [E Hs]]. injection E as <-.
      now apply String.eqb_neq.
  - split; [discriminate | intros [s [E _]]; discriminate].
Qed.

Lemma truthy_opt_false (o : option string) :
  truthy_opt o = false <-> o = None \/ o = Some "".
Proof.
  destruct o as [s |]; simpl.
  - rewrite negb_false_iff, String.eqb_eq. split.
    + intros ->. now right.
    + intros [E | E]; [discriminate | now injection E].
  - split; [now left | reflexivity].
Qed.


End PyFacts.

(** ** Facts about the tool *)

Section ToolFacts.
Import Py PyFacts Server.

Variable unicode_lower : string -> string.
Variable float_repr : bool -> positive -> Z -> string.
Variable backend_exn : Type.
Variable scrape_jobs : list Kw.t -> Kw.t -> backend_exn + list Row.t.

Local Abbreviation lower := (Py.lower unicode_lower).
Local Abbreviation site_name := (Server.site_name unicode_lower).
Local Abbreviation request := (normalize_request unicode_lower backend_exn).
Local Abbreviation tool :=
  (scrape_jobs_tool unicode_lower float_repr scrape_jobs).

Ltac request_cases :=
  unfold normalize_request, ret, raise;
  repeat match goal with
         | |- context [if ?b then _ else _] => destruct b eqn:?
         end.

(** The request normalizer never touches the world. *)
Lemma request_world B rk loc rc d c w :
  fst (request B rk loc rc d c w) = w.
Proof. request_cases; reflexivity. Qed.

(** It raises exactly when Indeed is selected and [Country] is falsy. *)
Lemma request_raises B rk loc rc d c w :
  In "indeed" (site_name B) -> truthy_opt c = false ->
  request B rk loc rc d c w = (w, inl (ValueError country_required)).
Proof.
  intros HI Hc. apply str_in_In in HI.
  unfold normalize_request. rewrite HI, Hc. reflexivity.
Qed.

Lemma request_inl B rk loc rc d c w w' e :
  request B rk loc rc d c w = (w', inl e) ->
  w' = w /\ e = ValueError country_required
  /\ In "indeed" (site_name B) /\ truthy_opt c = false.
Proof.
  unfold normalize_request, ret, raise.
  destruct (str_in "indeed" (site_name B)) eqn:HI; [| discriminate].
  destruct (truthy_opt c) eqn:Hc; simpl; [discriminate |].
  intros H. injection H as <- <-.
  repeat split. now apply str_in_In.
Qed.

(** The fields of a query the normalizer returns that are copied or
    computed without a branch. *)
Lemma request_inr B rk loc rc d c w w' kw :
  request B rk loc rc d c w = (w', inr kw) ->
  w' = w
  /\ Kw.site_name kw = site_name B
  /\ Kw.search_term kw = rk
  /\ Kw.location kw = loc
  /\ Kw.results_wanted kw = rc
  /\ Kw.hours_old kw = hours_old d
  /\ Kw.google_search_term kw = google_search_term (site_name B) rk loc.
Proof.
  unfold normalize_request, ret, raise.
  destruct (str_in "indeed" (site_name B));
    [destruct (negb (truthy_opt c)); [discriminate |] |];
    intros H; injection H as <- <-; repeat split.
Qed.

Lemma request_valid B rk loc rc d c w :
  (In "indeed" (site_name B) -> truthy_opt c = true) ->
  exists kw, request B rk loc rc d c w = (w, inr kw).
Proof.
  intros V. unfold normalize_request, ret, raise.
  destruct (str_in "indeed" (site_name B)) eqn:HI.
  - apply str_in_In in HI. rewrite (V HI). simpl. eauto.
  - eauto.
Qed.

(** One run of the tool, once the request has been normalized. *)
Lemma tool_run B rk loc rc d c w kw :
  request B rk loc rc d c w = (w, inr kw) ->
  tool B rk loc rc d c w =
  (mkWorld (calls w ++ [kw])%list,
   match scrape_jobs (calls w) kw with
   | inr jobs => inr (normalize_results float_repr jobs)
   | inl e => inl (BackendInvocationError e)
   end).
Proof.
  intros H. unfold scrape_jobs_tool, bind. rewrite H.
  unfold call_scrape_jobs, ret.
  destruct (scrape_jobs (calls w) kw); reflexivity.
Qed.

Lemma tool_raises B rk loc rc d c w e :
  request B rk loc rc d c w = (w, inl e) ->
  tool B rk loc rc d c w = (w, inl e).
Proof.
  intros H. unfold scrape_jobs_tool, bind. now rewrite H.
Qed.

(** A successful run made one backend call and normalized its table. *)
Lemma tool_inr B rk loc rc d c w w' out :
  tool B rk loc rc d c w = (w', inr out) ->
  exists kw jobs,
    request B rk loc rc d c w = (w, inr kw)
    /\ scrape_jobs (calls w) kw = inr jobs
    /\ w' = mkWorld (calls w ++ [kw])%list
    /\ out = normalize_results float_repr jobs.
Proof.
  intros H.
  destruct (request B rk loc rc d c w) as [w1 [e | kw]] eqn:R.
  - pose proof (request_inl _ _ _ _ _ _ _ _ _ R) as [-> _].
    rewrite (tool_raises _ _ _ _ _ _ _ _ R) in H. discriminate.
  - pose proof (request_inr _ _ _ _ _ _ _ _ _ R) as [-> _].
    rewrite (tool_run _ _ _ _ _ _ _ _ R) in H.
    destruct (scrape_jobs (calls w) kw) as [e | jobs] eqn:S;
      [discriminate |]; injection H as <- <-.
    exists kw, jobs. repeat split; assumption.
Qed.

(** The loop appends one dictionary per row, in row order. *)
Lemma collect_from (jobs : list Row.t) (acc : list Job.t) :
  fold_left (fun results row => (results ++ [listing float_repr row])%list)
    jobs acc
  = (acc ++ map (listing float_repr) jobs)%list.
Proof.
  revert acc. induction jobs as [| row jobs IH]; intros acc; simpl.
  - now rewrite app_nil_r.
  - rewrite IH, <- app_assoc. reflexivity.
Qed.

Lemma collect_map (jobs : list Row.t) :
  collect float_repr jobs = map (listing float_repr) jobs.
Proof. unfold collect. now rewrite collect_from. Qed.

End ToolFacts.

(** ** The specified properties *)

Section ToolSpec.
Import Py PyFacts Server.

Variable unicode_lower : string -> string.
Variable float_repr : bool -> positive -> Z -> string.
Variable backend_exn : Type.
Variable scrape_jobs : list Kw.t -> Kw.t -> backend_exn + list Row.t.

Local Abbreviation lower := (Py.lower unicode_lower).
Local Abbreviation site_name := (Server.site_name unicode_lower).
Local Abbreviation request := (normalize_request unicode_lower backend_exn).
Local Abbreviation tool :=
  (scrape_jobs_tool unicode_lower float_repr scrape_jobs).

(** C1. When the case-folded board list contains ["indeed"] and
    [Country] is [None] or the empty string, [scrape_jobs_tool] raises
    the [ValueError] whose message names [Country], and the world it
    leaves is the one it started from: [scrape_jobs] has not been
    called. *)
Theorem C1_missing_country_raises_before_backend
    (Boards : list string) (RoleKeywords Location : option string)
    (ResultCount PostedWithinDays : Z) (Country : option string)
    (w : World) :
  In "indeed" (site_name Boards) ->
  Country = None \/ Country = Some "" ->
  tool Boards RoleKeywords Location ResultCount PostedWithinDays Country w
  = (w, inl (ValueError country_required))
  /\ String.prefix "Country" country_required = true
  /\ calls (fst (tool Boards RoleKeywords Location ResultCount
                   PostedWithinDays Country w)) = calls w.
Proof.
  intros HI HC. apply truthy_opt_false in HC.
  assert (E : tool Boards RoleKeywords Location ResultCount
                PostedWithinDays Country w
              = (w, inl (ValueError country_required))).
  { apply tool_raises. now apply request_raises. }
  rewrite E. repeat split.
Qed.

(** C5. The query the Request Normalizer builds carries
    [hours_old = PostedWithinDays * 24], an exact product of integers,
    and that query is the one handed to [scrape_jobs]. *)
Theorem C5_hours_old_is_days_times_24
    (Boards : list string) (RoleKeywords Location : option string)
    (ResultCount PostedWithinDays : Z) (Country : option string)
    (w w' : World) (kw : Kw.t) :
  request Boards RoleKeywords Location ResultCount PostedWithinDays
    Country w = (w', inr kw) ->
  Kw.hours_old kw = (PostedWithinDays * 24)%Z
  /\ calls (fst (tool Boards RoleKeywords Location ResultCount
                   PostedWithinDays Country w))
     = (calls w ++ [kw])%list.
Proof.
  intros R.
  pose proof (request_inr _ _ _ _ _ _ _ _ _ _ _ R)
    as (-> & _ & _ & _ & _ & H & _).
  split; [exact H |].
  now rewrite (tool_run unicode_lower float_repr _ scrape_jobs _ _ _ _ _ _ _ _ R).
Qed.

(** C6. In every dictionary [scrape_jobs_tool] returns, ["Count"] is the
    length of ["Jobs"]. *)
Theorem C6_count_is_length_of_jobs
    (Boards : list string) (RoleKeywords Location : option string)
    (ResultCount PostedWithinDays : Z) (Country : option string)
    (w w' : World) (out : ResultSet) :
  tool Boards RoleKeywords Location ResultCount PostedWithinDays Country w
  = (w', inr out) ->
  Count out = Z.of_nat (List.length (Jobs out)).
Proof.
  intros H. apply tool_inr in H as (kw & jobs & _ & _ & _ & ->).
  reflexivity.
Qed.



(** C10. When [min_amount] and [max_amount] are truthy the ["Salary"]
    text is produced whatever [currency] and [interval] hold: their
    [str] is interpolated as it is, [None] included. *)
Theorem C10_salary_ignores_currency_and_interval (row : Row.t) :
  truthy (Row.min_amount row) = true ->
  truthy (Row.max_amount row) = true ->
  Job.Salary (listing float_repr row)
  = Some (str float_repr (Row.min_amount row) ++ "–"
          ++ str float_repr (Row.max_amount row) ++ " "
          ++ str float_repr (Row.currency row) ++ " ("
          ++ str float_repr (Row.interval row) ++ ")").
Proof.
  intros Tmin Tmax. unfold listing, salary; simpl.
  now rewrite Tmin, Tmax.
Qed.

(** C3, as the code has it. The board list is the list of the
    case-folded entries of [Boards], one per entry and in the same order:
    it is empty exactly when [Boards] is, and free of repeats exactly when
    no two entries of [Boards] fold to the same identifier. It is the
    board list of every query the Request Normalizer returns. *)
Theorem C3_site_name_keeps_every_entry (Boards : list string) :
  List.length (site_name Boards) = List.length Boards
  /\ (site_name Boards = [] <-> Boards = [])
  /\ (NoDup (site_name Boards)
      <-> forall i j b1 b2,
            nth_error Boards i = Some b1 ->
            nth_error Boards j = Some b2 ->
            lower b1 = lower b2 -> i = j)
  /\ (forall RoleKeywords Location ResultCount PostedWithinDays Country
             w w' kw,
        request Boards RoleKeywords Location ResultCount PostedWithinDays
          Country w = (w', inr kw) ->
        Kw.site_name kw = site_name Boards).
Proof.
  split; [apply length_map |].
  split.
  { destruct Boards; simpl; split; try reflexivity; discriminate. }
  split.
  - unfold Server.site_name. rewrite NoDup_nth_error. split.
    + intros H i j b1 b2 Hi Hj E. apply H.
      * rewrite length_map. apply nth_error_Some. congruence.
      * rewrite !nth_error_map, Hi, Hj. simpl. now rewrite E.
    + intros H i j Hlt E. rewrite length_map in Hlt.
      destruct (nth_error Boards i) as [b1 |] eqn:Hi;
        [| apply nth_error_Some in Hlt; contradiction].
      rewrite !nth_error_map, Hi in E. simpl in E.
      destruct (nth_error Boards j) as [b2 |] eqn:Hj; simpl in E;
        [| discriminate].
      injection E as E. exact (H i j b1 b2 Hi Hj E).
  - intros rk loc rc d c w w' kw R.
    now pose proof (request_inr _ _ _ _ _ _ _ _ _ _ _ R) as (_ & -> & _).
Qed.

(** C4, as the code has it. A synthesized term is set exactly when
    ["google"] is among the case-folded boards and [RoleKeywords] is
    given and not empty. It is then [RoleKeywords ++ " jobs"] when
    [Location] is [None] or empty, and
    [RoleKeywords ++ " jobs in " ++ Location] when [Location] is given
    and not empty. With [RoleKeywords] [None] or empty there is no
    term. This term is the one in every query the Request Normalizer
    returns. *)
Theorem C4_google_search_term
    (Boards : list string) (RoleKeywords Location : option string) :
  (google_search_term (site_name Boards) RoleKeywords Location <> None
   <-> In "google" (site_name Boards)
       /\ exists rk, RoleKeywords = Some rk /\ rk <> "")
  /\ (forall rk,
        In "google" (site_name Boards) ->
        RoleKeywords = Some rk -> rk <> "" ->
        (Location = None \/ Location = Some "" ->
         google_search_term (site_name Boards) RoleKeywords Location
         = Some (rk ++ " jobs"))
        /\ (forall loc, Location = Some loc -> loc <> "" ->
            google_search_term (site_name Boards) RoleKeywords Location
            = Some (rk ++ " jobs in " ++ loc)))
  /\ (RoleKeywords = None \/ RoleKeywords = Some "" ->
      google_search_term (site_name Boards) RoleKeywords Location = None)
  /\ (forall ResultCount PostedWithinDays Country w w' kw,
        request Boards RoleKeywords Location ResultCount PostedWithinDays
          Country w = (w', inr kw) ->
        Kw.google_search_term kw
        = google_search_term (site_name Boards) RoleKeywords Location).
Proof.
  unfold google_search_term.
  split; [| split; [| split]].
  - rewrite <- str_in_In, <- truthy_opt_true.
    destruct (str_in "google" (site_name Boards)); simpl;
      destruct (truthy_opt RoleKeywords); simpl;
      try destruct (truthy_opt Location);
      split; try discriminate; try tauto;
      intros [H1 H2]; discriminate.
  - intros rk HG -> Hrk. apply str_in_In in HG. rewrite HG.
    assert (T : truthy_opt (Some rk) = true)
      by (apply truthy_opt_true; eauto).
    rewrite T. simpl andb. cbv iota. split.
    + intros HL. apply truthy_opt_false in HL. now rewrite HL.
    + intros loc -> Hloc.
      assert (TL : truthy_opt (Some loc) = true)
        by (apply truthy_opt_true; eauto).
      rewrite TL. simpl str_opt.
      now rewrite append_assoc.
  - intros HR. apply truthy_opt_false in HR. rewrite HR.
    now rewrite andb_false_r.
  - intros rc d c w w' kw R.
    now pose proof (request_inr _ _ _ _ _ _ _ _ _ _ _ R)
      as (_ & _ & _ & _ & _ & _ & ->).
Qed.



(** C8. The Result Normalizer yields one listing per row, in row order:
    ["PostedDate"] is [str] of the row's [date_posted], and the nine
    other fields named below are the row's cells under the new keys. *)
Theorem C8_one_listing_per_row_in_order (jobs : list Row.t) :
  Forall2
    (fun row job =>
       Job.Title job = Row.title row
       /\ Job.Company job = Row.company row
       /\ Job.Location job = Row.location row
       /\ Job.PostedDate job = str float_repr (Row.date_posted row)
       /\ Job.JobType job = Row.job_type row
       /\ Job.ExperienceRange job = Row.experience_range row
       /\ Job.Remote job = Row.is_remote row
       /\ Job.Board job = Row.site row
       /\ Job.JobURL job = Row.job_url row
       /\ Job.CompanyURL job = Row.company_url row)
    jobs (Jobs (normalize_results float_repr jobs))
  /\ Count (normalize_results float_repr jobs)
     = Z.of_nat (List.length jobs).
Proof.
  unfold normalize_results; simpl. rewrite collect_map, length_map.
  split; [| reflexivity].
  induction jobs as [| row rest IH]; simpl; constructor.
  - repeat split.
  - exact IH.
Qed.

Variable scrape_jobs' : list Kw.t -> Kw.t -> backend_exn + list Row.t.

(** C9. What the Result Normalizer returns is a function of the table
    alone: two runs of the tool, on any requests, from any worlds and
    against any backends, in which the backend returned the same table
    [jobs], return the same dictionary. *)
Theorem C9_result_normalizer_is_deterministic
    (Boards1 Boards2 : list string)
    (RoleKeywords1 Location1 RoleKeywords2 Location2 : option string)
    (ResultCount1 PostedWithinDays1 ResultCount2 PostedWithinDays2 : Z)
    (Country1 Country2 : option string)
    (w1 w2 : World) (kw1 kw2 : Kw.t) (jobs : list Row.t) :
  request Boards1 RoleKeywords1 Location1 ResultCount1 PostedWithinDays1
    Country1 w1 = (w1, inr kw1) ->
  request Boards2 RoleKeywords2 Location2 ResultCount2 PostedWithinDays2
    Country2 w2 = (w2, inr kw2) ->
  scrape_jobs (calls w1) kw1 = inr jobs ->
  scrape_jobs' (calls w2) kw2 = inr jobs ->
  snd (tool Boards1 RoleKeywords1 Location1 ResultCount1
         PostedWithinDays1 Country1 w1)
  = inr (normalize_results float_repr jobs)
  /\ snd (scrape_jobs_tool unicode_lower float_repr scrape_jobs' Boards2
            RoleKeywords2 Location2 ResultCount2 PostedWithinDays2 Country2 w2)
     = snd (tool Boards1 RoleKeywords1 Location1 ResultCount1
              PostedWithinDays1 Country1 w1).
Proof.
  intros R1 R2 S1 S2.
  rewrite (tool_run unicode_lower float_repr _ scrape_jobs _ _ _ _ _ _ _ _ R1).
  rewrite (tool_run unicode_lower float_repr _ scrape_jobs' _ _ _ _ _ _ _ _ R2).
  simpl. now rewrite S1, S2.
Qed.

End ToolSpec.

(** ** Concrete runs *)

Section Runs.
Import Py Server.

Example lower_LinkedIn : lower Demo.unicode_lower "LinkedIn" = "linkedin".
Proof. reflexivity. Qed.

Example lower_outside_ascii :
  lower Demo.unicode_lower "CÔTE D'IVOIRE" = "côte d'ivoire"
  /\ site_name Demo.unicode_lower ["École"; "Indeed"] = ["école"; "indeed"]
  /\ ascii_lower "École" = "École".
Proof. repeat split; reflexivity. Qed.

Example str_int :
  str_of_Z 80000 = "80000" /\ str_of_Z 0 = "0" /\ str_of_Z (-5) = "-5".
Proof. repeat split; reflexivity. Qed.

Example str_date : str Demo.float_repr (VDate 2024 1 5) = "2024-01-05".
Proof. reflexivity. Qed.

Example en_dash_bytes : String.length "–" = 3.
Proof. reflexivity. Qed.

Example request_default_boards :
  normalize_request Demo.unicode_lower string default_Boards None None default_ResultCount
    default_PostedWithinDays (Some "Vietnam") Demo.w0
  = (Demo.w0, inr Demo.kw_default).
Proof. reflexivity. Qed.

Example request_google :
  normalize_request Demo.unicode_lower string ["Google"] (Some "Backend Engineer")
    (Some "Hanoi") 20 7 None Demo.w0
  = (Demo.w0, inr Demo.kw_google).
Proof. reflexivity. Qed.

Example request_google_no_location :
  option_map Kw.google_search_term
    (match snd (normalize_request Demo.unicode_lower string ["Google"]
                  (Some "Backend Engineer") None 20 7 None Demo.w0) with
     | inr kw => Some kw
     | inl _ => None
     end)
  = Some (Some "Backend Engineer jobs").
Proof. reflexivity. Qed.

Example salary_usd :
  Job.Salary (listing Demo.float_repr Demo.row_usd)
  = Some "80000–100000 USD (yearly)".
Proof. reflexivity. Qed.

Example salary_min_only :
  Job.Salary (listing Demo.float_repr Demo.row_min_only) = None.
Proof. reflexivity. Qed.

Example salary_zero_min :
  Job.Salary (listing Demo.float_repr Demo.row_zero_min) = None.
Proof. reflexivity. Qed.

Example salary_float :
  Job.Salary (listing Demo.float_repr Demo.row_float)
  = Some "80000.0–100000.0 USD (yearly)".
Proof. reflexivity. Qed.

(** A NaN bound is truthy: a row that has NaN where it has no salary
    gets a salary text. *)
Example salary_nan :
  Job.Salary (listing Demo.float_repr Demo.row_nan)
  = Some "nan–nan nan (nan)".
Proof. reflexivity. Qed.

Example tool_linkedin :
  scrape_jobs_tool Demo.unicode_lower Demo.float_repr Demo.backend ["LinkedIn"]
    (Some "Backend Engineer") (Some "Hanoi") 20 7 None Demo.w0
  = (mkWorld [Demo.kw_linkedin],
     inr {| Count := 2;
            Jobs := [listing Demo.float_repr Demo.row_usd;
                     listing Demo.float_repr Demo.row_min_only] |}).
Proof. reflexivity. Qed.

End Runs.

(** ** The properties at concrete requests *)

Section Witnesses.
Import Py PyFacts Server.

(** The default boards include Indeed; with no [Country] the tool
    raises and the backend log stays empty. *)
Lemma C1_witness :
  In "indeed" (site_name Demo.unicode_lower default_Boards)
  /\ scrape_jobs_tool Demo.unicode_lower Demo.float_repr Demo.backend default_Boards
       (Some "Backend Engineer") (Some "Hanoi") 20 7 None Demo.w0
     = (Demo.w0, inl (ValueError country_required))
  /\ calls (fst (scrape_jobs_tool Demo.unicode_lower Demo.float_repr Demo.backend
                   default_Boards (Some "Backend Engineer")
                   (Some "Hanoi") 20 7 None Demo.w0)) = [].
Proof.
  assert (HI : In "indeed" (site_name Demo.unicode_lower default_Boards))
    by (simpl; left; reflexivity).
  split; [exact HI |].
  destruct (C1_missing_country_raises_before_backend Demo.unicode_lower
              Demo.float_repr string Demo.backend default_Boards
              (Some "Backend Engineer") (Some "Hanoi") 20 7 None Demo.w0
              HI (or_introl eq_refl)) as (H1 & _ & H3).
  split; [exact H1 | exact H3].
Defined.


Lemma C3_witness :
  List.length (site_name Demo.unicode_lower default_Boards) = 3%nat
  /\ normalize_request Demo.unicode_lower string default_Boards None None 20 7
       (Some "Vietnam") Demo.w0 = (Demo.w0, inr Demo.kw_default)
  /\ Kw.site_name Demo.kw_default = ["indeed"; "linkedin"; "google"].
Proof.
  destruct (C3_site_name_keeps_every_entry Demo.unicode_lower string default_Boards)
    as (H1 & _ & _ & H4).
  split; [exact H1 |]. split; [reflexivity |].
  exact (H4 None None 20%Z 7%Z (Some "Vietnam") Demo.w0 Demo.w0
           Demo.kw_default eq_refl).
Defined.

(** The same board in two spellings stays twice in the list, and an
    empty [Boards] gives an empty list. *)
Lemma C3_counterexample :
  (exists kw,
      normalize_request Demo.unicode_lower string ["Indeed"; "indeed"] None None 20 7
        (Some "us") Demo.w0 = (Demo.w0, inr kw)
      /\ Kw.site_name kw = ["indeed"; "indeed"]
      /\ ~ NoDup (Kw.site_name kw))
  /\ (exists kw,
         normalize_request Demo.unicode_lower string [] None None 20 7 None Demo.w0
         = (Demo.w0, inr kw)
         /\ Kw.site_name kw = []).
Proof.
  split.
  - eexists. split; [reflexivity |]. split; [reflexivity |].
    simpl. intros H. inversion H as [| x l Hn _]; subst.
    apply Hn. now left.
  - eexists. split; reflexivity.
Qed.

Lemma C4_witness :
  google_search_term (site_name Demo.unicode_lower ["Google"]) (Some "Backend Engineer")
    (Some "Hanoi") = Some "Backend Engineer jobs in Hanoi"
  /\ google_search_term (site_name Demo.unicode_lower ["Google"]) (Some "Backend Engineer")
       None = Some "Backend Engineer jobs"
  /\ google_search_term (site_name Demo.unicode_lower ["Google"]) None (Some "Hanoi") = None.
Proof.
  assert (HG : In "google" (site_name Demo.unicode_lower ["Google"]))
    by (simpl; left; reflexivity).
  assert (Hrk : "Backend Engineer" <> "") by discriminate.
  assert (Hloc : "Hanoi" <> "") by discriminate.
  split; [| split].
  - destruct (C4_google_search_term Demo.unicode_lower string ["Google"]
                (Some "Backend Engineer") (Some "Hanoi")) as (_ & H & _).
    destruct (H "Backend Engineer" HG eq_refl Hrk) as [_ H2].
    exact (H2 "Hanoi" eq_refl Hloc).
  - destruct (C4_google_search_term Demo.unicode_lower string ["Google"]
                (Some "Backend Engineer") None) as (_ & H & _).
    destruct (H "Backend Engineer" HG eq_refl Hrk) as [H1 _].
    exact (H1 (or_introl eq_refl)).
  - destruct (C4_google_search_term Demo.unicode_lower string ["Google"] None (Some "Hanoi"))
      as (_ & _ & H & _).
    exact (H (or_introl eq_refl)).
Defined.

(** [RoleKeywords] given as the empty string, with Google selected: no
    synthesized term. [Location] given as the empty string: nothing is
    appended. *)
Lemma C4_counterexample :
  (exists kw,
      normalize_request Demo.unicode_lower string ["Google"] (Some "") None 20 7 None
        Demo.w0 = (Demo.w0, inr kw)
      /\ In "google" (Kw.site_name kw)
      /\ Kw.search_term kw <> None
      /\ Kw.google_search_term kw = None)
  /\ (exists kw,
         normalize_request Demo.unicode_lower string ["Google"] (Some "Backend Engineer")
           (Some "") 20 7 None Demo.w0 = (Demo.w0, inr kw)
         /\ Kw.location kw <> None
         /\ Kw.google_search_term kw = Some "Backend Engineer jobs"
         /\ Kw.google_search_term kw <> Some "Backend Engineer jobs in ").
Proof.
  split.
  - eexists. split; [reflexivity |]. simpl.
    repeat split; [now left | discriminate].
  - eexists. split; [reflexivity |]. simpl.
    repeat split; discriminate.
Qed.

Lemma C5_witness :
  normalize_request Demo.unicode_lower string ["LinkedIn"] (Some "Backend Engineer")
    (Some "Hanoi") 20 7 None Demo.w0 = (Demo.w0, inr Demo.kw_linkedin)
  /\ Kw.hours_old Demo.kw_linkedin = 168%Z
  /\ calls (fst (scrape_jobs_tool Demo.unicode_lower Demo.float_repr Demo.backend
                   ["LinkedIn"] (Some "Backend Engineer") (Some "Hanoi")
                   20 7 None Demo.w0))
     = [Demo.kw_linkedin].
Proof.
  split; [reflexivity |].
  exact (C5_hours_old_is_days_times_24 Demo.unicode_lower Demo.float_repr string
           Demo.backend ["LinkedIn"] (Some "Backend Engineer")
           (Some "Hanoi") 20 7 None Demo.w0 Demo.w0 Demo.kw_linkedin
           eq_refl).
Defined.

Lemma C6_witness :
  scrape_jobs_tool Demo.unicode_lower Demo.float_repr Demo.backend ["LinkedIn"]
    (Some "Backend Engineer") (Some "Hanoi") 20 7 None Demo.w0
  = (mkWorld [Demo.kw_linkedin],
     inr (normalize_results Demo.float_repr
            [Demo.row_usd; Demo.row_min_only]))
  /\ Count (normalize_results Demo.float_repr
              [Demo.row_usd; Demo.row_min_only]) = 2%Z.
Proof.
  split; [reflexivity |].
  exact (C6_count_is_length_of_jobs Demo.unicode_lower Demo.float_repr string Demo.backend
           ["LinkedIn"] (Some "Backend Engineer") (Some "Hanoi") 20 7
           None Demo.w0 (mkWorld [Demo.kw_linkedin])
           (normalize_results Demo.float_repr
              [Demo.row_usd; Demo.row_min_only])
           eq_refl).
Defined.


(** Two runs in a row, on different requests and against different
    backends, the second from the world the first left: the backend
    answers with the same table, the tool with the same dictionary. *)
Lemma C9_witness :
  snd (scrape_jobs_tool Demo.unicode_lower Demo.float_repr Demo.backend ["LinkedIn"]
         (Some "Backend Engineer") (Some "Hanoi") 20 7 None Demo.w0)
  = inr (normalize_results Demo.float_repr
           [Demo.row_usd; Demo.row_min_only])
  /\ snd (scrape_jobs_tool Demo.unicode_lower Demo.float_repr Demo.backend' ["Google"]
            (Some "Backend Engineer") (Some "Hanoi") 20 7 None
            (mkWorld [Demo.kw_linkedin]))
     = snd (scrape_jobs_tool Demo.unicode_lower Demo.float_repr Demo.backend ["LinkedIn"]
              (Some "Backend Engineer") (Some "Hanoi") 20 7 None Demo.w0).
Proof.
  exact (C9_result_normalizer_is_deterministic Demo.unicode_lower Demo.float_repr string
           Demo.backend Demo.backend'
           ["LinkedIn"] ["Google"]
           (Some "Backend Engineer") (Some "Hanoi")
           (Some "Backend Engineer") (Some "Hanoi")
           20 7 20 7 None None
           Demo.w0 (mkWorld [Demo.kw_linkedin])
           Demo.kw_linkedin Demo.kw_google
           [Demo.row_usd; Demo.row_min_only]
           eq_refl eq_refl eq_refl eq_refl).
Defined.

Lemma C10_witness :
  truthy (Row.min_amount Demo.row_no_currency) = true
  /\ truthy (Row.max_amount Demo.row_no_currency) = true
  /\ Job.Salary (listing Demo.float_repr Demo.row_no_currency)
     = Some "80000–100000 None (None)".
Proof.
  split; [reflexivity |]. split; [reflexivity |].
  exact (C10_salary_ignores_currency_and_interval Demo.float_repr
           Demo.row_no_currency eq_refl eq_refl).
Defined.

End Witnesses.

(** ** Further properties of [scrape_jobs_tool] *)

Section ToolMore.
Import Py PyFacts Server.

Variable unicode_lower : string -> string.
Variable float_repr : bool -> positive -> Z -> string.
Variable backend_exn : Type.
Variable scrape_jobs : list Kw.t -> Kw.t -> backend_exn + list Row.t.

Local Abbreviation lower := (Py.lower unicode_lower).
Local Abbreviation site_name := (Server.site_name unicode_lower).
Local Abbreviation request := (normalize_request unicode_lower backend_exn).
Local Abbreviation tool :=
  (scrape_jobs_tool unicode_lower float_repr scrape_jobs).

(** When every entry of [Boards] is an ASCII string, an identifier
    without upper-case letters is in the board list exactly when some
    entry spells it, in whatever case. *)
Lemma in_site_name (Boards : list string) (x : string) :
  Forall (fun b => is_ascii b = true) Boards ->
  has_upper x = false ->
  (In x (site_name Boards)
   <-> exists b, In b Boards /\ eq_upto_case b x = true).
Proof.
  intros A U. rewrite Forall_forall in A.
  unfold Server.site_name. rewrite in_map_iff.
  split; intros (b & H1 & H2); exists b.
  - split; [exact H2 |]. apply eq_upto_case_iff.
    rewrite <- (lower_ascii unicode_lower _ (A b H2)), H1.
    symmetry. now apply ascii_lower_fixed.
  - split; [| exact H1]. apply eq_upto_case_iff in H2.
    rewrite (lower_ascii unicode_lower _ (A b H1)), H2.
    now apply ascii_lower_fixed.
Qed.

Lemma in_site_name_no_upper (Boards : list string) (x : string) :
  Forall (fun b => is_ascii b = true) Boards ->
  In x (site_name Boards) -> has_upper x = false.
Proof.
  intros A. rewrite Forall_forall in A.
  unfold Server.site_name. rewrite in_map_iff.
  intros (b & <- & Hb). apply lower_no_upper. now apply A.
Qed.

Lemma site_name_idempotent (Boards : list string) :
  Forall (fun b => is_ascii b = true) Boards ->
  site_name (site_name Boards) = site_name Boards.
Proof.
  intros A. rewrite Forall_forall in A.
  unfold Server.site_name. rewrite map_map. apply map_ext_in.
  intros b Hb. apply lower_idempotent. now apply A.
Qed.

(** X1. A run of the tool makes no backend call exactly when "indeed" is
    in the board list and [Country] is [None] or empty; the run then
    ends in the "Country is required" [ValueError], from the world it
    started in. Nothing else keeps the tool from calling the backend. *)
Theorem X1_no_backend_call_iff_country_missing
    (Boards : list string) (RoleKeywords Location : option string)
    (ResultCount PostedWithinDays : Z) (Country : option string)
    (w : World) :
  (calls (fst (tool Boards RoleKeywords Location ResultCount
                 PostedWithinDays Country w)) = calls w
   <-> In "indeed" (site_name Boards)
       /\ (Country = None \/ Country = Some ""))
  /\ (calls (fst (tool Boards RoleKeywords Location ResultCount
                    PostedWithinDays Country w)) = calls w ->
      tool Boards RoleKeywords Location ResultCount PostedWithinDays
        Country w = (w, inl (ValueError country_required))).
Proof.
  rewrite <- truthy_opt_false.
  destruct (request Boards RoleKeywords Location ResultCount
              PostedWithinDays Country w) as [w1 [e | kw]] eqn:R.
  - pose proof (request_inl _ _ _ _ _ _ _ _ _ _ _ R) as (-> & -> & HI & HC).
    rewrite (tool_raises unicode_lower float_repr _ scrape_jobs
               _ _ _ _ _ _ _ _ R).
    simpl. split; [split; [intros _; now split | reflexivity] | reflexivity].
  - pose proof (request_inr _ _ _ _ _ _ _ _ _ _ _ R) as (-> & _).
    rewrite (tool_run unicode_lower float_repr _ scrape_jobs
               _ _ _ _ _ _ _ _ R).
    simpl.
    assert (N : (calls w ++ [kw])%list <> calls w).
    { intros E. apply (f_equal (@List.length Kw.t)) in E.
      rewrite length_app in E. simpl in E. lia. }
    split; [split |]; try (intros E; now elim N).
    intros [HI HC].
    rewrite (request_raises unicode_lower backend_exn _ RoleKeywords
               Location ResultCount PostedWithinDays _ w HI HC) in R.
    discriminate R.
Qed.

(** X2. In a query the Request Normalizer returns, [country_indeed] is
    the lower-case form of [Country] when "indeed" is in the board list,
    and is not set otherwise, also when a [Country] was given. For an
    ASCII [Country] the value set is its ASCII folding and has no
    upper-case letter. *)
Theorem X2_country_indeed_only_for_indeed
    (Boards : list string) (RoleKeywords Location : option string)
    (ResultCount PostedWithinDays : Z) (Country : option string)
    (w w' : World) (kw : Kw.t) :
  request Boards RoleKeywords Location ResultCount PostedWithinDays
    Country w = (w', inr kw) ->
  (In "indeed" (site_name Boards) ->
   exists c, Country = Some c /\ c <> ""
             /\ Kw.country_indeed kw = Some (lower c))
  /\ (~ In "indeed" (site_name Boards) -> Kw.country_indeed kw = None)
  /\ (forall c c',
        Country = Some c -> is_ascii c = true ->
        Kw.country_indeed kw = Some c' ->
        c' = ascii_lower c /\ has_upper c' = false).
Proof.
  unfold normalize_request, ret, raise.
  destruct (str_in "indeed" (site_name Boards)) eqn:HI.
  - destruct (truthy_opt Country) eqn:HC; simpl; [| discriminate].
    intros H. injection H as _ <-. simpl.
    apply truthy_opt_true in HC as (c & -> & Hc). simpl.
    split; [intros _; exists c; now repeat split |].
    split.
    + intros N. elim N. now apply str_in_In.
    + intros c0 c' E A E'. injection E as <-. injection E' as <-.
      split; [now apply lower_ascii | now apply lower_no_upper].
  - intros H. injection H as _ <-. simpl.
    split.
    + intros HIn. apply str_in_In in HIn. congruence.
    + split; [reflexivity |]. intros c c' _ _ E. discriminate E.
Qed.

(** X3. A failure of the backend comes back as it is, after the one call
    that failed: the tool does not call again and returns no result. *)
Theorem X3_backend_failure_propagates
    (Boards : list string) (RoleKeywords Location : option string)
    (ResultCount PostedWithinDays : Z) (Country : option string)
    (w w' : World) (kw : Kw.t) (e : backend_exn) :
  request Boards RoleKeywords Location ResultCount PostedWithinDays
    Country w = (w', inr kw) ->
  scrape_jobs (calls w) kw = inl e ->
  tool Boards RoleKeywords Location ResultCount PostedWithinDays Country w
  = (mkWorld (calls w ++ [kw])%list, inl (BackendInvocationError e)).
Proof.
  intros R S.
  pose proof (request_inr _ _ _ _ _ _ _ _ _ _ _ R) as (-> & _).
  rewrite (tool_run unicode_lower float_repr _ scrape_jobs _ _ _ _ _ _ _ _ R).
  now rewrite S.
Qed.

(** X4. One run of the tool keeps the calls already logged and adds at
    most one; it adds none exactly when it raises its [ValueError]. *)
Theorem X4_at_most_one_backend_call
    (Boards : list string) (RoleKeywords Location : option string)
    (ResultCount PostedWithinDays : Z) (Country : option string)
    (w : World) :
  exists new,
    calls (fst (tool Boards RoleKeywords Location ResultCount
                  PostedWithinDays Country w)) = (calls w ++ new)%list
    /\ (List.length new <= 1)%nat
    /\ (new = []
        <-> exists msg,
              snd (tool Boards RoleKeywords Location ResultCount
                     PostedWithinDays Country w)
              = inl (ValueError msg)).
Proof.
  destruct (request Boards RoleKeywords Location ResultCount
              PostedWithinDays Country w) as [w1 [e | kw]] eqn:R.
  - pose proof (request_inl _ _ _ _ _ _ _ _ _ _ _ R) as (-> & -> & _).
    rewrite (tool_raises unicode_lower float_repr _ scrape_jobs _ _ _ _ _ _ _ _ R).
    exists []. simpl. rewrite app_nil_r.
    repeat split; eauto.
  - pose proof (request_inr _ _ _ _ _ _ _ _ _ _ _ R) as (-> & _).
    rewrite (tool_run unicode_lower float_repr _ scrape_jobs _ _ _ _ _ _ _ _ R).
    exists [kw]. simpl. split; [reflexivity |]. split; [lia |].
    split; [discriminate |].
    intros [msg H]. destruct (scrape_jobs (calls w) kw); discriminate.
Qed.

(** X5. When the country rule is met, the tool calls the backend once,
    with a query that carries [RoleKeywords], [Location] and
    [ResultCount] as they were given, whatever they are: no value of
    them is rejected, trimmed or replaced. *)
Theorem X5_arguments_forwarded_unchecked
    (Boards : list string) (RoleKeywords Location : option string)
    (ResultCount PostedWithinDays : Z) (Country : option string)
    (w : World) :
  (In "indeed" (site_name Boards) ->
   exists c, Country = Some c /\ c <> "") ->
  exists kw,
    calls (fst (tool Boards RoleKeywords Location ResultCount
                  PostedWithinDays Country w)) = (calls w ++ [kw])%list
    /\ Kw.site_name kw = site_name Boards
    /\ Kw.search_term kw = RoleKeywords
    /\ Kw.location kw = Location
    /\ Kw.results_wanted kw = ResultCount.
Proof.
  intros V.
  destruct (request_valid unicode_lower backend_exn Boards RoleKeywords Location
              ResultCount PostedWithinDays Country w) as [kw R].
  { intros HI. apply truthy_opt_true. auto. }
  exists kw.
  rewrite (tool_run unicode_lower float_repr _ scrape_jobs _ _ _ _ _ _ _ _ R). simpl.
  pose proof (request_inr _ _ _ _ _ _ _ _ _ _ _ R)
    as (_ & H1 & H2 & H3 & H4 & _).
  now repeat split.
Qed.

(** X6. When every entry of [Boards] is an ASCII string, an identifier
    without upper-case letters is in the board list exactly when some
    entry of [Boards] spells it, in whatever case, and an identifier
    with an upper-case letter is never in the board list. *)
Theorem X6_board_list_membership (Boards : list string) (x : string) :
  Forall (fun b => is_ascii b = true) Boards ->
  (has_upper x = false ->
   (In x (site_name Boards)
    <-> exists b, In b Boards /\ eq_upto_case b x = true))
  /\ (has_upper x = true -> ~ In x (site_name Boards)).
Proof.
  intros A. split.
  - now apply in_site_name.
  - intros U HI. apply (in_site_name_no_upper _ _ A) in HI. congruence.
Qed.

Lemma str_in_permutation (x : string) (l1 l2 : list string) :
  Permutation l1 l2 -> str_in x l1 = str_in x l2.
Proof.
  intros P.
  destruct (str_in x l1) eqn:E1, (str_in x l2) eqn:E2; try reflexivity.
  - apply str_in_In in E1. apply (Permutation_in _ P) in E1.
    apply str_in_In in E1. congruence.
  - apply str_in_In in E2.
    apply (Permutation_in _ (Permutation_sym P)) in E2.
    apply str_in_In in E2. congruence.
Qed.

(** X7. The order of [Boards] decides nothing: two lists that are
    permutations of each other get board lists that are permutations of
    each other, the same synthesized term, the same [country_indeed],
    and fail validation together. *)
Theorem X7_board_order_is_irrelevant
    (Boards1 Boards2 : list string) (RoleKeywords Location : option string)
    (ResultCount PostedWithinDays : Z) (Country : option string)
    (w : World) :
  Permutation Boards1 Boards2 ->
  Permutation (site_name Boards1) (site_name Boards2)
  /\ google_search_term (site_name Boards1) RoleKeywords Location
     = google_search_term (site_name Boards2) RoleKeywords Location
  /\ (forall e,
        request Boards1 RoleKeywords Location ResultCount PostedWithinDays
          Country w = (w, inl e)
        <-> request Boards2 RoleKeywords Location ResultCount
              PostedWithinDays Country w = (w, inl e))
  /\ (forall kw1 kw2,
        request Boards1 RoleKeywords Location ResultCount PostedWithinDays
          Country w = (w, inr kw1) ->
        request Boards2 RoleKeywords Location ResultCount PostedWithinDays
          Country w = (w, inr kw2) ->
        Kw.country_indeed kw1 = Kw.country_indeed kw2
        /\ Kw.google_search_term kw1 = Kw.google_search_term kw2).
Proof.
  intros P.
  assert (PS : Permutation (site_name Boards1) (site_name Boards2))
    by (unfold Server.site_name; now apply Permutation_map).
  assert (G : google_search_term (site_name Boards1) RoleKeywords Location
              = google_search_term (site_name Boards2) RoleKeywords Location).
  { unfold google_search_term.
    now rewrite (str_in_permutation "google" _ _ PS). }
  split; [exact PS |]. split; [exact G |].
  unfold normalize_request, ret, raise.
  rewrite (str_in_permutation "indeed" _ _ PS), G.
  split.
  - intros e.
    destruct (str_in "indeed" (site_name Boards2));
      [destruct (negb (truthy_opt Country)) |];
      split; intros H; try discriminate H; exact H.
  - intros kw1 kw2.
    destruct (str_in "indeed" (site_name Boards2));
      [destruct (negb (truthy_opt Country)); [discriminate |] |];
      intros H1 H2; injection H1 as <-; injection H2 as <-;
      split; reflexivity.
Qed.

(** X8. On ASCII boards normalizing is idempotent: called with the board
    list it would build, the tool normalizes the request as it does for
    the boards as given, and runs to the same outcome. *)
Theorem X8_normalized_boards_are_a_fixed_point
    (Boards : list string) (RoleKeywords Location : option string)
    (ResultCount PostedWithinDays : Z) (Country : option string)
    (w : World) :
  Forall (fun b => is_ascii b = true) Boards ->
  site_name (site_name Boards) = site_name Boards
  /\ request (site_name Boards) RoleKeywords Location ResultCount
       PostedWithinDays Country w
     = request Boards RoleKeywords Location ResultCount PostedWithinDays
         Country w
  /\ tool (site_name Boards) RoleKeywords Location ResultCount
       PostedWithinDays Country w
     = tool Boards RoleKeywords Location ResultCount PostedWithinDays
         Country w.
Proof.
  intros A.
  assert (R : request (site_name Boards) RoleKeywords Location ResultCount
                PostedWithinDays Country w
              = request Boards RoleKeywords Location ResultCount
                  PostedWithinDays Country w).
  { unfold normalize_request. now rewrite (site_name_idempotent _ A). }
  split; [now apply site_name_idempotent |]. split; [exact R |].
  unfold scrape_jobs_tool, bind. now rewrite R.
Qed.

Lemma eq_upto_case_empty (s1 s2 : string) :
  eq_upto_case s1 s2 = true -> (s1 =? "") = (s2 =? "").
Proof. destruct s1, s2; simpl; try discriminate; reflexivity. Qed.

(** X9. The case of an ASCII [Country] decides nothing: two requests
    that differ only in the case of the letters of [Country] are
    normalized alike and run to the same outcome. *)
Theorem X9_country_case_is_irrelevant
    (Boards : list string) (RoleKeywords Location : option string)
    (ResultCount PostedWithinDays : Z) (Country1 Country2 : string)
    (w : World) :
  is_ascii Country1 = true -> is_ascii Country2 = true ->
  eq_upto_case Country1 Country2 = true ->
  request Boards RoleKeywords Location ResultCount PostedWithinDays
    (Some Country1) w
  = request Boards RoleKeywords Location ResultCount PostedWithinDays
      (Some Country2) w
  /\ tool Boards RoleKeywords Location ResultCount PostedWithinDays
       (Some Country1) w
     = tool Boards RoleKeywords Location ResultCount PostedWithinDays
         (Some Country2) w.
Proof.
  intros A1 A2 E.
  assert (R : request Boards RoleKeywords Location ResultCount
                PostedWithinDays (Some Country1) w
              = request Boards RoleKeywords Location ResultCount
                  PostedWithinDays (Some Country2) w).
  { assert (T : truthy_opt (Some Country1) = truthy_opt (Some Country2))
      by (simpl; now rewrite (eq_upto_case_empty _ _ E)).
    assert (L : option_map lower (Some Country1)
                = option_map lower (Some Country2))
      by (simpl; apply (lower_eq_upto_case unicode_lower _ _ A1 A2) in E;
          now rewrite E).
    unfold normalize_request. now rewrite T, L. }
  split; [exact R |].
  unfold scrape_jobs_tool, bind. now rewrite R.
Qed.

(** X10. The Result Normalizer works row by row: on a table made of two
    tables one after the other, ["Jobs"] is the two lists of listings
    one after the other and ["Count"] is the sum of the two counts;
    ["Count"] is never negative, and is zero exactly for the empty
    table, which gives an empty ["Jobs"]. *)
Theorem X10_normalize_results_appends (jobs1 jobs2 : list Row.t) :
  Jobs (normalize_results float_repr (jobs1 ++ jobs2)%list)
  = (Jobs (normalize_results float_repr jobs1)
     ++ Jobs (normalize_results float_repr jobs2))%list
  /\ Count (normalize_results float_repr (jobs1 ++ jobs2)%list)
     = (Count (normalize_results float_repr jobs1)
        + Count (normalize_results float_repr jobs2))%Z
  /\ (0 <= Count (normalize_results float_repr jobs1))%Z
  /\ (Count (normalize_results float_repr jobs1) = 0%Z <-> jobs1 = [])
  /\ normalize_results float_repr [] = {| Count := 0; Jobs := [] |}.
Proof.
  unfold normalize_results; simpl.
  rewrite !collect_map, map_app, length_app, !length_map.
  split; [reflexivity |]. split; [lia |]. split; [lia |].
  split; [| reflexivity].
  destruct jobs1; simpl; split; try reflexivity; try discriminate; lia.
Qed.

(** X11. The recency conversion loses nothing and clamps nothing: the
    days are recovered from [hours_old] by an exact division by 24, and
    a negative or zero [PostedWithinDays] gives a negative or zero
    [hours_old]. *)
Theorem X11_hours_old_is_lossless
    (Boards : list string) (RoleKeywords Location : option string)
    (ResultCount PostedWithinDays : Z) (Country : option string)
    (w w' : World) (kw : Kw.t) :
  request Boards RoleKeywords Location ResultCount PostedWithinDays
    Country w = (w', inr kw) ->
  (Kw.hours_old kw / 24 = PostedWithinDays)%Z
  /\ (Kw.hours_old kw mod 24 = 0)%Z
  /\ (Kw.hours_old kw < 0 <-> PostedWithinDays < 0)%Z
  /\ (Kw.hours_old kw = 0 <-> PostedWithinDays = 0)%Z.
Proof.
  intros R.
  pose proof (request_inr _ _ _ _ _ _ _ _ _ _ _ R)
    as (_ & _ & _ & _ & _ & -> & _).
  unfold hours_old.
  split; [apply Z.div_mul; lia |].
  split; [apply Z.mod_mul; lia |].
  split; lia.
Qed.

(** X12. [Location] only adds a suffix: with a non-empty location the
    synthesized term is the term for no location followed by
    [" in " ++ Location], and an empty location gives the term for no
    location; whether there is a term does not depend on [Location]. *)
Theorem X12_location_only_appends
    (boards : list string) (RoleKeywords : option string) (loc : string) :
  loc <> "" ->
  google_search_term boards RoleKeywords (Some loc)
  = option_map (fun term => term ++ " in " ++ loc)
      (google_search_term boards RoleKeywords None)
  /\ google_search_term boards RoleKeywords (Some "")
     = google_search_term boards RoleKeywords None
  /\ (google_search_term boards RoleKeywords (Some loc) = None
      <-> google_search_term boards RoleKeywords None = None).
Proof.
  intros Hloc.
  assert (T : truthy_opt (Some loc) = true)
    by (apply truthy_opt_true; eauto).
  unfold google_search_term. rewrite T. simpl.
  destruct (str_in "google" boards && truthy_opt RoleKeywords); simpl.
  - repeat split; discriminate.
  - repeat split.
Qed.

(** X13. A result of the tool holds every row the backend returned to
    its one call, as listings in row order: ["Count"] is the number of
    those rows, whatever [ResultCount] asked for; the tool itself drops
    no row and cuts the list nowhere. *)
Theorem X13_result_holds_every_returned_row
    (Boards : list string) (RoleKeywords Location : option string)
    (ResultCount PostedWithinDays : Z) (Country : option string)
    (w w' : World) (out : ResultSet) :
  tool Boards RoleKeywords Location ResultCount PostedWithinDays Country w
  = (w', inr out) ->
  exists kw jobs,
    calls w' = (calls w ++ [kw])%list
    /\ Kw.results_wanted kw = ResultCount
    /\ scrape_jobs (calls w) kw = inr jobs
    /\ Jobs out = map (listing float_repr) jobs
    /\ Count out = Z.of_nat (List.length jobs).
Proof.
  intros H. apply tool_inr in H as (kw & jobs & R & S & -> & ->).
  exists kw, jobs.
  pose proof (request_inr _ _ _ _ _ _ _ _ _ _ _ R) as (_ & _ & _ & _ & H4 & _).
  unfold normalize_results; simpl. rewrite collect_map, length_map.
  now repeat split.
Qed.

End ToolMore.

(** ** The further properties at concrete requests *)

Section MoreWitnesses.
Import Py PyFacts Server.

Lemma X2_witness :
  normalize_request Demo.unicode_lower string default_Boards None None 20 7
    (Some "Vietnam") Demo.w0 = (Demo.w0, inr Demo.kw_default)
  /\ In "indeed" (site_name Demo.unicode_lower default_Boards)
  /\ exists c, Some "Vietnam" = Some c /\ c <> ""
               /\ Kw.country_indeed Demo.kw_default = Some (lower Demo.unicode_lower c).
Proof.
  assert (HI : In "indeed" (site_name Demo.unicode_lower default_Boards))
    by (simpl; left; reflexivity).
  split; [reflexivity |]. split; [exact HI |].
  destruct (X2_country_indeed_only_for_indeed Demo.unicode_lower string default_Boards None
              None 20 7 (Some "Vietnam") Demo.w0 Demo.w0 Demo.kw_default
              eq_refl) as (H & _).
  exact (H HI).
Defined.

(** The first call of this backend is throttled: the tool raises that
    failure and has logged the one call. *)
Lemma X3_witness :
  normalize_request Demo.unicode_lower string ["LinkedIn"] (Some "Backend Engineer")
    (Some "Hanoi") 20 7 None Demo.w0 = (Demo.w0, inr Demo.kw_linkedin)
  /\ Demo.backend' (calls Demo.w0) Demo.kw_linkedin = inl "throttled"
  /\ scrape_jobs_tool Demo.unicode_lower Demo.float_repr Demo.backend' ["LinkedIn"]
       (Some "Backend Engineer") (Some "Hanoi") 20 7 None Demo.w0
     = (mkWorld [Demo.kw_linkedin],
        inl (BackendInvocationError "throttled")).
Proof.
  split; [reflexivity |]. split; [reflexivity |].
  exact (X3_backend_failure_propagates Demo.unicode_lower Demo.float_repr string
           Demo.backend' ["LinkedIn"] (Some "Backend Engineer")
           (Some "Hanoi") 20 7 None Demo.w0 Demo.w0 Demo.kw_linkedin
           "throttled" eq_refl eq_refl).
Defined.

(** An empty search term and a negative result count go to the backend
    as they are. *)
Lemma X5_witness :
  (In "indeed" (site_name Demo.unicode_lower ["LinkedIn"]) ->
   exists c, @None string = Some c /\ c <> "")
  /\ exists kw,
       calls (fst (scrape_jobs_tool Demo.unicode_lower Demo.float_repr Demo.backend
                     ["LinkedIn"] (Some "") None (-3) 7 None Demo.w0))
       = [kw]
       /\ Kw.site_name kw = ["linkedin"]
       /\ Kw.search_term kw = Some ""
       /\ Kw.location kw = None
       /\ Kw.results_wanted kw = (-3)%Z.
Proof.
  assert (V : In "indeed" (site_name Demo.unicode_lower ["LinkedIn"]) ->
              exists c, @None string = Some c /\ c <> "").
  { simpl. intros [H | []]. discriminate H. }
  split; [exact V |].
  exact (X5_arguments_forwarded_unchecked Demo.unicode_lower Demo.float_repr string
           Demo.backend ["LinkedIn"] (Some "") None (-3) 7 None Demo.w0 V).
Defined.

(** "LINKEDIN" is not in the board list of the default boards, and
    "linkedin" is there because of the entry "LinkedIn". *)
Lemma X6_witness :
  Forall (fun b => is_ascii b = true) default_Boards
  /\ ~ In "LINKEDIN" (site_name Demo.unicode_lower default_Boards)
  /\ (In "linkedin" (site_name Demo.unicode_lower default_Boards)
      <-> exists b, In b default_Boards
                    /\ eq_upto_case b "linkedin" = true).
Proof.
  assert (A : Forall (fun b => is_ascii b = true) default_Boards)
    by (repeat constructor).
  split; [exact A |].
  split.
  - exact (proj2 (X6_board_list_membership Demo.unicode_lower
                    default_Boards "LINKEDIN" A) eq_refl).
  - exact (proj1 (X6_board_list_membership Demo.unicode_lower
                    default_Boards "linkedin" A) eq_refl).
Defined.

Lemma X7_witness :
  Permutation ["Google"; "Indeed"] ["Indeed"; "Google"]
  /\ google_search_term (site_name Demo.unicode_lower ["Google"; "Indeed"])
       (Some "Backend Engineer") (Some "Hanoi")
     = google_search_term (site_name Demo.unicode_lower ["Indeed"; "Google"])
         (Some "Backend Engineer") (Some "Hanoi")
  /\ Permutation (site_name Demo.unicode_lower ["Google"; "Indeed"])
       (site_name Demo.unicode_lower ["Indeed"; "Google"]).
Proof.
  assert (P : Permutation ["Google"; "Indeed"] ["Indeed"; "Google"])
    by apply perm_swap.
  split; [exact P |].
  destruct (X7_board_order_is_irrelevant Demo.unicode_lower string
              ["Google"; "Indeed"] ["Indeed"; "Google"]
              (Some "Backend Engineer") (Some "Hanoi") 20 7 None Demo.w0 P)
    as (H1 & H2 & _).
  split; [exact H2 | exact H1].
Defined.

Lemma X8_witness :
  Forall (fun b => is_ascii b = true) default_Boards
  /\ site_name Demo.unicode_lower
       (site_name Demo.unicode_lower default_Boards)
     = ["indeed"; "linkedin"; "google"]
  /\ scrape_jobs_tool Demo.unicode_lower Demo.float_repr Demo.backend
       ["indeed"; "linkedin"; "google"] None None 20 7 (Some "Vietnam")
       Demo.w0
     = scrape_jobs_tool Demo.unicode_lower Demo.float_repr Demo.backend
         default_Boards None None 20 7 (Some "Vietnam") Demo.w0.
Proof.
  assert (A : Forall (fun b => is_ascii b = true) default_Boards)
    by (repeat constructor).
  split; [exact A |].
  destruct (X8_normalized_boards_are_a_fixed_point Demo.unicode_lower
              Demo.float_repr string Demo.backend default_Boards None None
              20 7 (Some "Vietnam") Demo.w0 A) as (H1 & _ & H3).
  split; [exact H1 | exact H3].
Defined.

Lemma X9_witness :
  is_ascii "Vietnam" = true
  /\ is_ascii "VIETNAM" = true
  /\ eq_upto_case "Vietnam" "VIETNAM" = true
  /\ normalize_request Demo.unicode_lower string default_Boards None None
       20 7 (Some "Vietnam") Demo.w0
     = normalize_request Demo.unicode_lower string default_Boards None None
         20 7 (Some "VIETNAM") Demo.w0
  /\ scrape_jobs_tool Demo.unicode_lower Demo.float_repr Demo.backend
       default_Boards None None 20 7 (Some "Vietnam") Demo.w0
     = scrape_jobs_tool Demo.unicode_lower Demo.float_repr Demo.backend
         default_Boards None None 20 7 (Some "VIETNAM") Demo.w0.
Proof.
  split; [reflexivity |]. split; [reflexivity |]. split; [reflexivity |].
  exact (X9_country_case_is_irrelevant Demo.unicode_lower Demo.float_repr
           string Demo.backend default_Boards None None 20 7
           "Vietnam" "VIETNAM" Demo.w0 eq_refl eq_refl eq_refl).
Defined.

Lemma X11_witness :
  normalize_request Demo.unicode_lower string ["LinkedIn"] (Some "Backend Engineer")
    (Some "Hanoi") 20 7 None Demo.w0 = (Demo.w0, inr Demo.kw_linkedin)
  /\ (Kw.hours_old Demo.kw_linkedin / 24 = 7)%Z
  /\ (Kw.hours_old Demo.kw_linkedin mod 24 = 0)%Z.
Proof.
  split; [reflexivity |].
  destruct (X11_hours_old_is_lossless Demo.unicode_lower string ["LinkedIn"]
              (Some "Backend Engineer") (Some "Hanoi") 20 7 None
              Demo.w0 Demo.w0 Demo.kw_linkedin eq_refl) as (H1 & H2 & _).
  split; [exact H1 | exact H2].
Defined.

Lemma X12_witness :
  "Hanoi" <> ""
  /\ google_search_term ["google"] (Some "Backend Engineer") (Some "Hanoi")
     = option_map (fun term => term ++ " in " ++ "Hanoi")
         (google_search_term ["google"] (Some "Backend Engineer") None).
Proof.
  assert (H : "Hanoi" <> "") by discriminate.
  split; [exact H |].
  exact (proj1 (X12_location_only_appends ["google"]
                  (Some "Backend Engineer") "Hanoi" H)).
Defined.

(** One listing was asked for; the backend returned two rows and both
    are in the result. *)
Lemma X13_witness :
  scrape_jobs_tool Demo.unicode_lower Demo.float_repr Demo.backend ["LinkedIn"] None None 1 7
    None Demo.w0
  = (mkWorld [{| Kw.site_name := ["linkedin"];
                 Kw.search_term := None;
                 Kw.google_search_term := None;
                 Kw.location := None;
                 Kw.results_wanted := 1;
                 Kw.hours_old := 168;
                 Kw.country_indeed := None |}],
     inr (normalize_results Demo.float_repr
            [Demo.row_usd; Demo.row_min_only]))
  /\ exists kw jobs,
       Kw.results_wanted kw = 1%Z
       /\ Demo.backend (calls Demo.w0) kw = inr jobs
       /\ Count (normalize_results Demo.float_repr
                   [Demo.row_usd; Demo.row_min_only])
          = Z.of_nat (List.length jobs)
       /\ List.length jobs = 2%nat.
Proof.
  split; [reflexivity |].
  destruct (X13_result_holds_every_returned_row Demo.unicode_lower Demo.float_repr string
              Demo.backend ["LinkedIn"] None None 1 7 None Demo.w0 _ _
              eq_refl) as (kw & jobs & _ & H2 & H3 & _ & H5).
  exists kw, jobs. repeat split; try assumption.
  unfold Demo.backend in H3. injection H3 as <-. reflexivity.
Defined.

End MoreWitnesses.
